(** * creator.py: the build-script emitter of the Tauri client

    [src/tauri-client/creator.py] is a straight-line Python module.  It
    holds two string constants, writes each of them to a file of the
    current working directory, marks the first file executable and
    prints one confirmation line per file.

    The development embeds the module body in a small reader / state /
    exception monad over a model of the working directory, of Python's
    text files and of the console, and proves the properties of the
    specification about it. *)

From Stdlib Require Import ZArith Ascii String List Lia.
From stdpp Require Import gmap strings list fin_maps.

Open Scope Z_scope.

(** ** Text *)

(** A Python [str] is represented by the bytes of its UTF-8 form, which
    is how the literals are stored in [creator.py].  A [string] below is
    always such a text: what Python's text layer is given to write and
    gives back on reading, above the encoding and the line-end
    translation of the platform. *)

Module Text.

(** The double quote and the line feed, which a literal cannot hold. *)
Definition dq : string := String (ascii_of_nat 34) EmptyString.
Definition nl : string := String (ascii_of_nat 10) EmptyString.

Definition quoted (s : string) : string := dq +:+ s +:+ dq.

(** The text of a triple-quoted literal, given line by line: every line
    of it, the last one too, is ended by a line feed. *)
Definition unlines (ls : list string) : string :=
  foldr (fun l rest => l +:+ nl +:+ rest) EmptyString ls.

(** The bytes of a text, as numbers. *)
Definition bytes (s : string) : list Z :=
  (fun a => Z.of_N (N_of_ascii a)) <$> list_ascii_of_string s.

End Text.

Import Text.

(** ** The two templates (creator.py, lines 2-41 and 52-95) *)

Definition minimal_build_script : string :=
  unlines
    [ "#!/bin/bash";
      "# minimal-build.sh - Build the simple desktop app";
      EmptyString;
      "echo " +:+ quoted "🏗️  Building Simple P2P Notebook Desktop App";
      "echo " +:+ quoted "============================================";
      EmptyString;
      "# Clean first";
      "echo " +:+ quoted "🧹 Cleaning previous builds...";
      "cargo clean";
      EmptyString;
      "echo " +:+ quoted EmptyString;
      "echo " +:+ quoted "🦀 Building Rust desktop app...";
      EmptyString;
      "# Build the app";
      "if cargo tauri build; then";
      "    echo " +:+ quoted EmptyString;
      "    echo " +:+ quoted "🎉 SUCCESS! Desktop app built successfully!";
      "    echo " +:+ quoted EmptyString;
      "    echo " +:+ quoted "📦 Your app is ready in src-tauri/target/release/bundle/";
      "    echo " +:+ quoted EmptyString;
      "    echo " +:+ quoted "🚀 To run in development mode:";
      "    echo " +:+ quoted "   cargo tauri dev";
      "    echo " +:+ quoted EmptyString;
      "    echo " +:+ quoted "✅ What you have now:";
      "    echo " +:+ quoted "   - Native desktop application";
      "    echo " +:+ quoted "   - Simple document editor" +:+ " ";
      "    echo " +:+ quoted "   - Basic UI with placeholders";
      "    echo " +:+ quoted "   - Ready for P2P features";
      "    echo " +:+ quoted "   - Ready for authentication";
      "else";
      "    echo " +:+ quoted EmptyString;
      "    echo " +:+ quoted "❌ Build failed. Check the error above.";
      "    echo " +:+ quoted EmptyString;
      "    echo " +:+ quoted "🔧 Common fixes:";
      "    echo " +:+ quoted "   1. Make sure you're in the project root";
      "    echo " +:+ quoted "   2. Run: rustup update";
      "    echo " +:+ quoted "   3. Run: cargo install @tauri-apps/cli@^2.0.0";
      "    echo " +:+ quoted "   4. Check system dependencies (Linux)";
      "fi" ].

Definition minimal_build_bat : string :=
  unlines
    [ "@echo off";
      "REM minimal-build.bat - Build the simple desktop app";
      EmptyString;
      "echo 🏗️  Building Simple P2P Notebook Desktop App";
      "echo ============================================";
      EmptyString;
      "REM Clean first";
      "echo 🧹 Cleaning previous builds...";
      "cargo clean";
      EmptyString;
      "echo.";
      "echo 🦀 Building Rust desktop app...";
      EmptyString;
      "REM Build the app";
      "cargo tauri build";
      EmptyString;
      "if %ERRORLEVEL% EQU 0 (";
      "    echo.";
      "    echo 🎉 SUCCESS! Desktop app built successfully!";
      "    echo.";
      "    echo 📦 Your app is ready in src-tauri/target/release/bundle/";
      "    echo.";
      "    echo 🚀 To run in development mode:";
      "    echo    cargo tauri dev";
      "    echo.";
      "    echo ✅ What you have now:";
      "    echo    - Native desktop application";
      "    echo    - Simple document editor";
      "    echo    - Basic UI with placeholders";
      "    echo    - Ready for P2P features";
      "    echo    - Ready for authentication";
      ") else (";
      "    echo.";
      "    echo ❌ Build failed. Check the error above.";
      "    echo.";
      "    echo 🔧 Common fixes:";
      "    echo    1. Make sure you're in the project root";
      "    echo    2. Run: rustup update";
      "    echo    3. Run: cargo install @tauri-apps/cli@^2.0.0";
      "    echo    4. Restart command prompt as administrator";
      ")";
      EmptyString;
      "pause" ].

(** The file names and the confirmation messages of the module body. *)
Definition sh_name : string := "minimal-build.sh".
Definition bat_name : string := "minimal-build.bat".
Definition sh_created : string := "✓ Created minimal-build.sh".
Definition bat_created : string := "✓ Created minimal-build.bat".


(** ** The runtime the module body runs against *)

(** Python picks the encoding of a text file opened without an
    [encoding] argument, and the one of [sys.stdout], from the locale and
    the settings of the process.  The module fixes neither, so both are
    part of the environment of a run, each as the set of texts it can
    encode.  Three encodings are given to build environments from. *)
Inductive codec := utf_8 | latin_1 | ascii.

(** Can the codec encode the text?  On the UTF-8 form of a text: ASCII
    holds the code points below 128, which are the bytes below 0x80;
    Latin-1 the code points below 256, whose lead bytes are at most
    0xC3; UTF-8 holds every code point of a source literal. *)
Definition encodable (c : codec) (text : string) : bool :=
  match c with
  | utf_8 => true
  | latin_1 => forallb (fun b => Z.ltb b 196) (bytes text)
  | ascii => forallb (fun b => Z.ltb b 128) (bytes text)
  end.

(** The error handler of an encoder: [strict] raises on a character
    the encoding lacks, [replace] puts a question mark for it.  Text
    files opened by [open(name, 'w')] are strict; the handler of the
    console is a setting of the process. *)
Inductive errors := strict | replace.

Definition accepts (c : codec) (h : errors) (text : string) : bool :=
  match h with
  | strict => encodable c text
  | replace => true
  end.

(** The bytes ASCII and Latin-1 make of the UTF-8 form of a text, with
    a question mark (63) for each character they lack: a lead byte
    stands for its character and the continuation bytes behind it are
    passed over. *)
Fixpoint ascii_bytes (l : list Z) : list Z :=
  match l with
  | [] => []
  | b :: r =>
    if Z.ltb b 128 then b :: ascii_bytes r
    else if Z.ltb b 192 then ascii_bytes r
    else 63 :: ascii_bytes r
  end.

Fixpoint latin1_bytes (l : list Z) : list Z :=
  match l with
  | [] => []
  | b :: r =>
    if Z.ltb b 128 then b :: latin1_bytes r
    else if Z.ltb b 192 then latin1_bytes r
    else if Z.ltb b 194 then 63 :: latin1_bytes r
    else if Z.ltb b 196 then
      match r with
      | x :: r' => (x + 64 * (b - 194)) :: latin1_bytes r'
      | [] => []
      end
    else 63 :: latin1_bytes r
  end.

(** The bytes the codec makes of a text it is given. *)
Definition encode (c : codec) (text : string) : list Z :=
  match c with
  | utf_8 => bytes text
  | latin_1 => latin1_bytes (bytes text)
  | ascii => ascii_bytes (bytes text)
  end.

(** The exceptions the built-ins used by the module can raise. *)
Inductive exn :=
| OSError (errno : Z)
| UnicodeEncodeError
| ValueError.                   (* write to a closed file object *)

Definition ENOENT : Z := 2.
Definition EACCES : Z := 13.

(** What the module does to the outside, in order. *)
Inductive event :=
| EvOpen (name : string)                 (* created or truncated *)
| EvWrite (name : string) (text : string)(* text taken by the file object *)
| EvClose (name : string)                (* flushed to the file and closed *)
| EvChmod (name : string) (mode : Z)
| EvPrint (text : string)
| EvSpawn (cmd : string).                (* a child process is started *)

(** A permission mode written as three octal digits: [oct3 7 5 5] is
    Python's [0o755]. *)
Definition oct3 (u g o : Z) : Z := u * 64 + g * 8 + o.

Record file := File { content : string; mode : Z }.

(** The state: the working directory, the text buffered in the file
    objects that are open (a file object is named by its file), the
    lines printed, as texts, the trace of effects so far, and the bytes
    the console has received, line by line and without the line ends.
    In the working directory a name stands for a file of its own: links
    between names are not modelled. *)
Record world := World {
  fs : gmap string file;
  pending : gmap string string;
  stdout : list string;
  trace : list event;
  console : list (list Z) }.

(** The environment of a run.  The module reads none of [argv] and
    [environ].  [file_encodes] says which texts the encoding of text
    files can encode, [stdout_encodes] which texts the console takes
    under its encoding and error handler, and [stdout_bytes] the bytes
    the console gets for a text it takes.  The [os_] fields say which
    system calls are refused and with which errno ([None]: the call goes
    through): creating or truncating a file, writing a buffer to it,
    changing its mode, and writing a line to the console; [os_partial]
    says how many bytes of the buffer reach the file when the write is
    refused. *)
Record env := Env {
  argv : list string;
  environ : gmap string string;
  umask : Z;
  file_encodes : string -> bool;
  stdout_encodes : string -> bool;
  os_open : string -> option Z;
  os_write : string -> option Z;
  os_chmod : string -> Z -> option Z;
  os_print : string -> option Z;
  stdout_bytes : string -> list Z;
  os_partial : string -> nat }.

Definition set_fs (m : gmap string file) (w : world) : world :=
  World m (pending w) (stdout w) (trace w) (console w).
Definition set_pending (p : gmap string string) (w : world) : world :=
  World (fs w) p (stdout w) (trace w) (console w).
Definition set_stdout (o : list string) (w : world) : world :=
  World (fs w) (pending w) o (trace w) (console w).
Definition set_console (c : list (list Z)) (w : world) : world :=
  World (fs w) (pending w) (stdout w) (trace w) c.
Definition log (ev : event) (w : world) : world :=
  World (fs w) (pending w) (stdout w) (trace w ++ [ev]) (console w).

(** ** The monad of module code *)

Inductive result (A : Type) :=
| Ok (a : A)
| Raise (e : exn).
Arguments Ok {A} a.
Arguments Raise {A} e.

Definition M (A : Type) : Type := env -> world -> result A * world.

Definition ret {A} (a : A) : M A := fun _ w => (Ok a, w).

Definition bind {A B} (c : M A) (k : A -> M B) : M B := fun E w =>
  match c E w with
  | (Ok a, w1) => k a E w1
  | (Raise e, w1) => (Raise e, w1)
  end.

(** [try: c finally: d] runs [d] whether [c] raises or not; an exception
    of [d] replaces the one of [c]. *)
Definition finally {A} (c : M A) (d : M unit) : M A := fun E w =>
  match c E w with
  | (r, w1) =>
    match d E w1 with
    | (Ok _, w2) => (r, w2)
    | (Raise e, w2) => (Raise e, w2)
    end
  end.

Declare Scope py_scope.
Delimit Scope py_scope with py.
Notation "x <- c ;; k" := (bind c (fun x => k))
  (at level 100, c at next level, right associativity) : py_scope.
Notation "c ;; k" := (bind c (fun _ => k))
  (at level 100, right associativity) : py_scope.
Open Scope py_scope.

(** ** The built-ins *)

(** Mode of a file created by [open]: 0o666 without the umask bits. *)
Definition creat_mode (E : env) : Z := Z.land (oct3 6 6 6) (Z.lnot (umask E)).

(** The mode of a file that [open(name, 'w')] has opened: a file that
    was there keeps its mode. *)
Definition opened_mode (E : env) (m : gmap string file) (name : string) : Z :=
  match m !! name with
  | Some old => mode old
  | None => creat_mode E
  end.

(** [open(name, 'w')]: the file is created empty when it is missing and
    truncated, its mode kept, when it is there.  The file object is
    named after the file. *)
Definition open_w (name : string) : M string := fun E w =>
  match os_open E name with
  | Some errno => (Raise (OSError errno), w)
  | None =>
    let m := opened_mode E (fs w) name in
    (Ok name,
     log (EvOpen name)
       (set_pending (<[name := EmptyString]> (pending w))
          (set_fs (<[name := File EmptyString m]> (fs w)) w)))
  end.

(** [f.write(text)]: the text is encoded, which can fail, and kept in the
    buffer of the file object; the templates are far below the size at
    which a buffer is flushed early. *)
Definition write (f : string) (text : string) : M unit := fun E w =>
  match pending w !! f with
  | None => (Raise ValueError, w)
  | Some buf =>
    if file_encodes E text
    then (Ok tt, log (EvWrite f text)
                   (set_pending (<[f := buf +:+ text]> (pending w)) w))
    else (Raise UnicodeEncodeError, w)
  end.

Definition append (buf : string) (x : file) : file :=
  File (content x +:+ buf) (mode x).

(** [f.close()]: the buffer, when it holds text, is written behind what
    the file holds, and the file object is closed whether this works or
    not.  A write that is refused may have put the first bytes of the
    buffer in the file.  Closing a closed file object does nothing. *)
Definition close (f : string) : M unit := fun E w =>
  match pending w !! f with
  | None => (Ok tt, w)
  | Some buf =>
    let w1 := set_pending (delete f (pending w)) w in
    if String.eqb buf EmptyString then (Ok tt, log (EvClose f) w1)
    else
      match os_write E f with
      | Some errno =>
        let part := String.substring 0 (os_partial E f) buf in
        (Raise (OSError errno), set_fs (alter (append part) f (fs w1)) w1)
      | None =>
        (Ok tt, log (EvClose f) (set_fs (alter (append buf) f (fs w1)) w1))
      end
  end.

(** [with open(name, 'w') as f: body]. *)
Definition with_open_w {A} (name : string) (body : string -> M A) : M A :=
  f <- open_w name ;;
  finally (body f) (close f).

(** [os.chmod(name, m)] replaces the permission bits of the file. *)
Definition chmod (name : string) (m : Z) : M unit := fun E w =>
  match os_chmod E name m with
  | Some errno => (Raise (OSError errno), w)
  | None =>
    match fs w !! name with
    | None => (Raise (OSError ENOENT), w)
    | Some x =>
      (Ok tt, log (EvChmod name m)
                (set_fs (<[name := File (content x) (Z.land m 4095)]> (fs w)) w))
    end
  end.

(** [print(text)]: one line, encoded for the console, which can fail
    under a strict error handler, and written to it: the console gets
    the bytes its encoding and error handler make of the text.  A
    refused write is the one of a console that is written through; where
    [sys.stdout] is buffered the write comes when the interpreter exits,
    after the module body, and [os_print] is [None]. *)
Definition print (text : string) : M unit := fun E w =>
  if stdout_encodes E text
  then
    match os_print E text with
    | Some errno => (Raise (OSError errno), w)
    | None =>
      (Ok tt,
       log (EvPrint text)
         (set_console (console w ++ [stdout_bytes E text])
            (set_stdout (stdout w ++ [text]) w)))
    end
  else (Raise UnicodeEncodeError, w).

(** ** The module body (creator.py, lines 43-100)

    [import os] (line 46) binds a name and has no effect on the world. *)
Definition creator : M unit :=
  with_open_w sh_name (fun f => write f minimal_build_script) ;;
  chmod sh_name (oct3 7 5 5) ;;
  print sh_created ;;
  with_open_w bat_name (fun f => write f minimal_build_bat) ;;
  print bat_created.

(** The shell-script part of the module body (lines 43-47). *)
Definition sh_part : M unit :=
  with_open_w sh_name (fun f => write f minimal_build_script) ;;
  chmod sh_name (oct3 7 5 5).

(** ** What a run leaves behind *)

(** The file system lets the module work: the two files can be created
    and written in the working directory, and the mode of the shell
    script can be changed. *)
Definition permits (E : env) : Prop :=
  os_open E sh_name = None /\ os_write E sh_name = None /\
  os_chmod E sh_name (oct3 7 5 5) = None /\
  os_open E bat_name = None /\ os_write E bat_name = None.

(** The encoding of text files can encode the two templates and the one
    of the console the two lines. *)
Definition encodes (E : env) : Prop :=
  file_encodes E minimal_build_script = true /\
  file_encodes E minimal_build_bat = true /\
  stdout_encodes E sh_created = true /\
  stdout_encodes E bat_created = true.

(** The console takes the two lines. *)
Definition console_ok (E : env) : Prop :=
  os_print E sh_created = None /\ os_print E bat_created = None.

(** How far the environment lets a run go: the shell script is written;
    it is made executable too; its line is printed too; the batch script
    is written too. *)
Definition sh_written (E : env) : Prop :=
  os_open E sh_name = None /\ file_encodes E minimal_build_script = true /\
  os_write E sh_name = None.
Definition sh_done (E : env) : Prop :=
  sh_written E /\ os_chmod E sh_name (oct3 7 5 5) = None.
Definition sh_reported (E : env) : Prop :=
  sh_done E /\ stdout_encodes E sh_created = true /\
  os_print E sh_created = None.
Definition bat_written (E : env) : Prop :=
  sh_reported E /\ os_open E bat_name = None /\
  file_encodes E minimal_build_bat = true /\ os_write E bat_name = None.

(** The world after [with open(name, 'w') as f: f.write(text)] went
    through. *)
Definition written (name text : string) (E : env) (w : world) : world :=
  World (<[name := File text (opened_mode E (fs w) name)]> (fs w))
        (delete name (pending w)) (stdout w)
        (trace w ++ [EvOpen name; EvWrite name text; EvClose name])
        (console w).

(** The world when that block was left by an exception after [open]: the
    file is there and empty; [t] is what the block did. *)
Definition truncated (name : string) (t : list event) (E : env) (w : world)
  : world :=
  World (<[name := File EmptyString (opened_mode E (fs w) name)]> (fs w))
        (delete name (pending w)) (stdout w) (trace w ++ t) (console w).

(** The world when the write of the block was refused: the file holds
    the first bytes of the text, as many as the write let through. *)
Definition cut_short (name text : string) (E : env) (w : world) : world :=
  World (<[name := File (String.substring 0 (os_partial E name) text)
                        (opened_mode E (fs w) name)]> (fs w))
        (delete name (pending w)) (stdout w)
        (trace w ++ [EvOpen name; EvWrite name text]) (console w).

(** The world after [os.chmod(name, m)] and after [print(text)]. *)
Definition chmodded (name : string) (m : Z) (w : world) : world :=
  World (alter (fun x => File (content x) (Z.land m 4095)) name (fs w))
        (pending w) (stdout w) (trace w ++ [EvChmod name m]) (console w).

Definition printed (text : string) (E : env) (w : world) : world :=
  World (fs w) (pending w) (stdout w ++ [text]) (trace w ++ [EvPrint text])
        (console w ++ [stdout_bytes E text]).

(** The worlds between the statements of the module body. *)
Definition after_sh (E : env) (w : world) : world :=
  written sh_name minimal_build_script E w.
Definition after_chmod (E : env) (w : world) : world :=
  chmodded sh_name (oct3 7 5 5) (after_sh E w).
Definition after_print_sh (E : env) (w : world) : world :=
  printed sh_created E (after_chmod E w).
Definition after_bat (E : env) (w : world) : world :=
  written bat_name minimal_build_bat E (after_print_sh E w).
Definition completed (E : env) (w : world) : world :=
  printed bat_created E (after_bat E w).

(** The effects of a complete run, in order. *)
Definition full_trace : list event :=
  [ EvOpen sh_name; EvWrite sh_name minimal_build_script; EvClose sh_name;
    EvChmod sh_name (oct3 7 5 5); EvPrint sh_created;
    EvOpen bat_name; EvWrite bat_name minimal_build_bat; EvClose bat_name;
    EvPrint bat_created ].

(** The working directory a complete run makes of [m]. *)
Definition emitted (E : env) (m : gmap string file) : gmap string file :=
  <[bat_name := File minimal_build_bat (opened_mode E m bat_name)]>
    (<[sh_name := File minimal_build_script (oct3 7 5 5)]> m).

(** The runs of the module body: one rule for each way a statement can
    raise, and one for the complete run. *)
Inductive run_of (E : env) (w : world) : result unit -> world -> Prop :=
| run_open_sh n :
    os_open E sh_name = Some n ->
    run_of E w (Raise (OSError n)) w
| run_encode_sh :
    os_open E sh_name = None ->
    file_encodes E minimal_build_script = false ->
    run_of E w (Raise UnicodeEncodeError)
      (truncated sh_name [EvOpen sh_name; EvClose sh_name] E w)
| run_flush_sh n :
    os_open E sh_name = None ->
    file_encodes E minimal_build_script = true ->
    os_write E sh_name = Some n ->
    run_of E w (Raise (OSError n))
      (cut_short sh_name minimal_build_script E w)
| run_chmod n :
    sh_written E ->
    os_chmod E sh_name (oct3 7 5 5) = Some n ->
    run_of E w (Raise (OSError n)) (after_sh E w)
| run_encode_print_sh :
    sh_done E ->
    stdout_encodes E sh_created = false ->
    run_of E w (Raise UnicodeEncodeError) (after_chmod E w)
| run_print_sh n :
    sh_done E ->
    stdout_encodes E sh_created = true ->
    os_print E sh_created = Some n ->
    run_of E w (Raise (OSError n)) (after_chmod E w)
| run_open_bat n :
    sh_reported E ->
    os_open E bat_name = Some n ->
    run_of E w (Raise (OSError n)) (after_print_sh E w)
| run_encode_bat :
    sh_reported E ->
    os_open E bat_name = None ->
    file_encodes E minimal_build_bat = false ->
    run_of E w (Raise UnicodeEncodeError)
      (truncated bat_name [EvOpen bat_name; EvClose bat_name] E
         (after_print_sh E w))
| run_flush_bat n :
    sh_reported E ->
    os_open E bat_name = None ->
    file_encodes E minimal_build_bat = true ->
    os_write E bat_name = Some n ->
    run_of E w (Raise (OSError n))
      (cut_short bat_name minimal_build_bat E (after_print_sh E w))
| run_encode_print_bat :
    bat_written E ->
    stdout_encodes E bat_created = false ->
    run_of E w (Raise UnicodeEncodeError) (after_bat E w)
| run_print_bat n :
    bat_written E ->
    stdout_encodes E bat_created = true ->
    os_print E bat_created = Some n ->
    run_of E w (Raise (OSError n)) (after_bat E w)
| run_complete :
    bat_written E ->
    stdout_encodes E bat_created = true ->
    os_print E bat_created = None ->
    run_of E w (Ok tt) (completed E w).

(** The effects of a run: what it added to the trace. *)
Definition effects (w w' : world) : list event :=
  drop (length (trace w)) (trace w').

(** The lines a run printed, read off its effects. *)
Definition prints (t : list event) : list string :=
  omap (fun ev => match ev with EvPrint text => Some text | _ => None end) t.

(** ** Environments and directories to run the module in *)

(** A POSIX system with a UTF-8 locale, umask 022 and a directory that
    can be written to. *)
Definition posix : env :=
  Env ["creator.py"] ∅ (oct3 0 2 2) (encodable utf_8) (encodable utf_8)
      (fun _ => None) (fun _ => None) (fun _ _ => None) (fun _ => None)
      (encode utf_8) (fun _ => 0%nat).

(** The same system started with other arguments, variables and umask. *)
Definition posix' : env :=
  Env ["creator.py"; "--release"] {[ "HOME" := "/root" ]} (oct3 0 7 7)
      (encodable utf_8) (encodable utf_8)
      (fun _ => None) (fun _ => None) (fun _ _ => None) (fun _ => None)
      (encode utf_8) (fun _ => 0%nat).

(** The same system under a Latin-1 locale. *)
Definition latin1_locale : env :=
  Env ["creator.py"] {[ "LANG" := "en_US.ISO-8859-1" ]} (oct3 0 2 2)
      (encodable latin_1) (encodable latin_1)
      (fun _ => None) (fun _ => None) (fun _ _ => None) (fun _ => None)
      (encode latin_1) (fun _ => 0%nat).

(** A directory in which no file can be created or opened for writing. *)
Definition read_only : env :=
  Env ["creator.py"] ∅ (oct3 0 2 2) (encodable utf_8) (encodable utf_8)
      (fun _ => Some EACCES) (fun _ => None) (fun _ _ => None)
      (fun _ => None) (encode utf_8) (fun _ => 0%nat).

Definition empty_dir : world := World ∅ ∅ [] [] [].

(** A directory that holds other versions of the two files. *)
Definition stale_dir : world :=
  World {[ sh_name := File "echo old" (oct3 6 0 0);
           bat_name := File "rem old" (oct3 6 4 0) ]} ∅ [] [] [].

Definition EPERM : Z := 1.

(** A file system on which modes cannot be changed. *)
Definition no_chmod : env :=
  Env ["creator.py"] ∅ (oct3 0 2 2) (encodable utf_8) (encodable utf_8)
      (fun _ => None) (fun _ => None) (fun _ _ => Some EPERM)
      (fun _ => None) (encode utf_8) (fun _ => 0%nat).

(** A directory in which [minimal-build.bat] cannot be opened for
    writing, as when it is there and read-only. *)
Definition bat_locked : env :=
  Env ["creator.py"] ∅ (oct3 0 2 2) (encodable utf_8) (encodable utf_8)
      (fun name => if String.eqb name bat_name then Some EACCES else None)
      (fun _ => None) (fun _ _ => None) (fun _ => None)
      (encode utf_8) (fun _ => 0%nat).

(** A UTF-8 system whose console is set to ASCII. *)
Definition ascii_console : env :=
  Env ["creator.py"] {[ "PYTHONIOENCODING" := "ascii" ]} (oct3 0 2 2)
      (encodable utf_8) (encodable ascii)
      (fun _ => None) (fun _ => None) (fun _ _ => None) (fun _ => None)
      (encode ascii) (fun _ => 0%nat).

(** A UTF-8 system whose console is set to ASCII with the [replace]
    error handler. *)
Definition ascii_replace : env :=
  Env ["creator.py"] {[ "PYTHONIOENCODING" := "ascii:replace" ]}
      (oct3 0 2 2) (encodable utf_8) (accepts ascii replace)
      (fun _ => None) (fun _ => None) (fun _ _ => None) (fun _ => None)
      (encode ascii) (fun _ => 0%nat).

Definition EFBIG : Z := 27.

(** A system that lets no file grow beyond 100 bytes. *)
Definition size_limit : env :=
  Env ["creator.py"] ∅ (oct3 0 2 2) (encodable utf_8) (encodable utf_8)
      (fun _ => None) (fun _ => Some EFBIG) (fun _ _ => None)
      (fun _ => None) (encode utf_8) (fun _ => 100%nat).

(** * Properties *)

(** ** Facts about the constants *)

Lemma sh_bat_ne : sh_name <> bat_name.
Proof. discriminate. Qed.

Lemma script_nonempty : minimal_build_script <> EmptyString.
Proof. discriminate. Qed.

Lemma bat_nonempty : minimal_build_bat <> EmptyString.
Proof. discriminate. Qed.

(** The sizes of the two literals in the source file, in bytes. *)
Lemma template_sizes :
  String.length minimal_build_script = 1136%nat /\
  String.length minimal_build_bat = 1118%nat.
Proof. split; reflexivity. Qed.

(** Of the three encodings, UTF-8 alone can encode the templates and the
    confirmation lines: each of them holds a code point above 255. *)
Lemma encodable_script c :
  encodable c minimal_build_script = true <-> c = utf_8.
Proof. destruct c; vm_compute; split; congruence. Qed.

Lemma encodable_bat c : encodable c minimal_build_bat = true <-> c = utf_8.
Proof. destruct c; vm_compute; split; congruence. Qed.

Lemma encodable_sh_created c : encodable c sh_created = true <-> c = utf_8.
Proof. destruct c; vm_compute; split; congruence. Qed.

Lemma encodable_bat_created c : encodable c bat_created = true <-> c = utf_8.
Proof. destruct c; vm_compute; split; congruence. Qed.

Lemma length_append s t :
  String.length (s +:+ t) = (String.length s + String.length t)%nat.
Proof. induction s as [|a s IH]; simpl; [done|by rewrite IH]. Qed.

Lemma append_left_inv old text : text = old +:+ text -> old = EmptyString.
Proof.
  intros Heq%(f_equal String.length). rewrite length_append in Heq.
  destruct old; [done|simpl in Heq; lia].
Qed.

(** ** The statements, one by one *)

Section Statements.
Variables (E : env) (w : world).

Lemma with_open_w_write name text :
  text <> EmptyString ->
  with_open_w name (fun f => write f text) E w =
  match os_open E name with
  | Some errno => (Raise (OSError errno), w)
  | None =>
    if file_encodes E text then
      match os_write E name with
      | Some errno => (Raise (OSError errno), cut_short name text E w)
      | None => (Ok tt, written name text E w)
      end
    else (Raise UnicodeEncodeError,
          truncated name [EvOpen name; EvClose name] E w)
  end.
Proof.
  intros Htext.
  unfold with_open_w, bind, finally, open_w, write, close, written,
    truncated, cut_short.
  destruct w as [d p o t c].
  destruct (os_open E name); [done|].
  cbv [log set_pending set_fs fs pending stdout trace console].
  rewrite !lookup_insert_eq.
  change (EmptyString +:+ text) with text.
  destruct (file_encodes E text).
  - cbv [log set_pending set_fs fs pending stdout trace console].
    rewrite lookup_insert_eq, insert_insert_eq, delete_insert_eq.
    destruct (String.eqb_spec text EmptyString) as [->|_]; [done|].
    destruct (os_write E name); rewrite <- ?app_assoc;
      by rewrite alter_insert_eq.
  - rewrite lookup_insert_eq, delete_insert_eq. by rewrite <- !app_assoc.
Qed.

Lemma chmod_eq name m :
  chmod name m E w =
  match os_chmod E name m with
  | Some errno => (Raise (OSError errno), w)
  | None =>
    match fs w !! name with
    | None => (Raise (OSError ENOENT), w)
    | Some _ => (Ok tt, chmodded name m w)
    end
  end.
Proof.
  unfold chmod, chmodded. destruct (os_chmod E name m); [done|].
  destruct (fs w !! name) as [x|] eqn:Hx; [|done].
  do 2 f_equal. unfold log, set_fs; simpl. f_equal.
  apply map_eq; intros k. destruct (decide (name = k)) as [<-|Hk].
  - by rewrite lookup_insert_eq, lookup_alter_eq, Hx.
  - by rewrite lookup_insert_ne, lookup_alter_ne.
Qed.

Lemma print_eq text :
  print text E w =
  if stdout_encodes E text then
    match os_print E text with
    | Some errno => (Raise (OSError errno), w)
    | None => (Ok tt, printed text E w)
    end
  else (Raise UnicodeEncodeError, w).
Proof. reflexivity. Qed.

Lemma fs_after_sh :
  fs (after_sh E w) !! sh_name =
  Some (File minimal_build_script (opened_mode E (fs w) sh_name)).
Proof. apply lookup_insert_eq. Qed.

End Statements.

(** ** The module body *)

(** Every run of the module body is one of the runs of [run_of]. *)
Lemma creator_run_of E w : run_of E w (creator E w).1 (creator E w).2.
Proof.
  unfold creator, bind.
  rewrite with_open_w_write by apply script_nonempty.
  destruct (os_open E sh_name) as [n|] eqn:Ho; [by constructor|].
  destruct (file_encodes E minimal_build_script) eqn:Hfe;
    [|by constructor].
  destruct (os_write E sh_name) as [n|] eqn:Hw; [by constructor|].
  fold (after_sh E w). rewrite chmod_eq, fs_after_sh.
  destruct (os_chmod _ _ _) as [n|] eqn:Hc; [by apply run_chmod|].
  fold (after_chmod E w). rewrite print_eq.
  destruct (stdout_encodes E sh_created) eqn:Hse;
    [|by apply run_encode_print_sh].
  destruct (os_print E sh_created) as [n|] eqn:Hp; [by apply run_print_sh|].
  fold (after_print_sh E w).
  rewrite with_open_w_write by apply bat_nonempty.
  destruct (os_open E bat_name) as [n|] eqn:Ho'; [by apply run_open_bat|].
  destruct (file_encodes E minimal_build_bat) eqn:Hfe';
    [|by apply run_encode_bat].
  destruct (os_write E bat_name) as [n|] eqn:Hw'; [by apply run_flush_bat|].
  fold (after_bat E w). rewrite print_eq.
  destruct (stdout_encodes E bat_created) eqn:Hse';
    [|by apply run_encode_print_bat].
  destruct (os_print E bat_created) as [n|] eqn:Hp'; [by apply run_print_bat|].
  by apply run_complete.
Qed.

(** A run goes through exactly when the file system, the encodings and
    the console let it, and then it ends in [completed]. *)
Lemma creator_ok E w w' :
  creator E w = (Ok tt, w') <->
  permits E /\ encodes E /\ console_ok E /\ w' = completed E w.
Proof.
  pose proof (creator_run_of E w) as H. split.
  - intros Heq. rewrite Heq in H. simpl in H. inversion H as [| | | | | | | | | | |Hb ? ?].
    destruct Hb as ((((? & ? & ?) & ?) & ? & ?) & ? & ? & ?).
    by repeat split.
  - intros ((? & ? & ? & ? & ?) & (? & ? & ? & ?) & [? ?] & ->).
    destruct (creator E w) as [r w']. simpl in H.
    inversion H as [ | | |Hs|Hs|Hs|Hs|Hs|Hs|Hs|Hs|Hs]; subst;
      unfold bat_written, sh_reported, sh_done, sh_written in *;
      try congruence; try (destruct_and?; congruence).
Qed.

Lemma creator_completes E w :
  permits E -> encodes E -> console_ok E ->
  creator E w = (Ok tt, completed E w).
Proof. intros. by apply creator_ok. Qed.

Lemma fs_completed E w : fs (completed E w) = emitted E (fs w).
Proof.
  unfold completed, after_bat, after_print_sh, after_chmod, after_sh, emitted.
  simpl. rewrite alter_insert_eq. unfold opened_mode at 1.
  by rewrite lookup_insert_ne by apply sh_bat_ne.
Qed.

Lemma emitted_sh E m :
  emitted E m !! sh_name = Some (File minimal_build_script (oct3 7 5 5)).
Proof.
  unfold emitted.
  by rewrite lookup_insert_ne, lookup_insert_eq by (symmetry; apply sh_bat_ne).
Qed.

Lemma emitted_bat E m :
  emitted E m !! bat_name
  = Some (File minimal_build_bat (opened_mode E m bat_name)).
Proof. apply lookup_insert_eq. Qed.

Lemma emitted_emitted E1 E2 m : emitted E2 (emitted E1 m) = emitted E1 m.
Proof.
  unfold emitted at 1. unfold opened_mode at 1. rewrite emitted_bat. simpl.
  rewrite (insert_id _ sh_name) by apply emitted_sh.
  apply insert_id, emitted_bat.
Qed.

Lemma stdout_completed E w :
  stdout (completed E w) = stdout w ++ [sh_created; bat_created].
Proof. simpl. by rewrite <- app_assoc. Qed.

Lemma trace_completed E w : trace (completed E w) = trace w ++ full_trace.
Proof. simpl. by rewrite <- !app_assoc. Qed.

Lemma console_completed E w :
  console (completed E w)
  = console w ++ (stdout_bytes E <$> [sh_created; bat_created]).
Proof. simpl. by rewrite <- app_assoc. Qed.

Lemma effects_app w w' t : trace w' = trace w ++ t -> effects w w' = t.
Proof. unfold effects. intros ->. apply drop_app_length. Qed.

Lemma effects_completed E w : effects w (completed E w) = full_trace.
Proof. apply effects_app, trace_completed. Qed.

(** ** Runs that stop early *)

(** What a run did is the first [n] effects of the complete run; the
    exceptions are the runs in which a template cannot be encoded, where
    the file is closed without a write. *)
Lemma run_of_effects E w r w' :
  run_of E w r w' ->
  (exists n, effects w w' = take n full_trace) \/
  effects w w' = [EvOpen sh_name; EvClose sh_name] \/
  effects w w' = take 5 full_trace ++ [EvOpen bat_name; EvClose bat_name].
Proof.
  intros H.
  assert (Hnil : trace w = trace w ++ []) by (symmetry; apply app_nil_r).
  destruct H.
  - left. exists 0%nat. by apply effects_app.
  - right; left. by apply effects_app.
  - left. exists 2%nat. by apply effects_app.
  - left. exists 3%nat. by apply effects_app.
  - left. exists 4%nat. apply effects_app. simpl. by rewrite <- !app_assoc.
  - left. exists 4%nat. apply effects_app. simpl. by rewrite <- !app_assoc.
  - left. exists 5%nat. apply effects_app. simpl. by rewrite <- !app_assoc.
  - right; right. apply effects_app. simpl. by rewrite <- !app_assoc.
  - left. exists 7%nat. apply effects_app. simpl. by rewrite <- !app_assoc.
  - left. exists 8%nat. apply effects_app. simpl. by rewrite <- !app_assoc.
  - left. exists 8%nat. apply effects_app. simpl. by rewrite <- !app_assoc.
  - left. exists 9%nat. apply effects_app, trace_completed.
Qed.

Lemma creator_effects E w :
  (exists n, effects w (creator E w).2 = take n full_trace) \/
  effects w (creator E w).2 = [EvOpen sh_name; EvClose sh_name] \/
  effects w (creator E w).2
  = take 5 full_trace ++ [EvOpen bat_name; EvClose bat_name].
Proof. eapply run_of_effects, creator_run_of. Qed.

(** Each effect of a run, complete or not, is an effect of the complete
    run. *)
Lemma creator_effects_in E w ev :
  ev ∈ effects w (creator E w).2 -> ev ∈ full_trace.
Proof.
  destruct (creator_effects E w) as [[n ->]|[->| ->]].
  - apply subseteq_take.
  - rewrite !elem_of_cons, elem_of_nil. unfold full_trace.
    intros [->|[->|[]]]; repeat constructor.
  - simpl. rewrite !elem_of_cons, elem_of_nil. unfold full_trace.
    intros [->|[->|[->|[->|[->|[->|[->|[]]]]]]]]; repeat constructor.
Qed.

(** The module body is its shell-script part followed by the rest, which
    is run only when the first part went through. *)
Lemma creator_sh_part E w :
  creator E w =
  match sh_part E w with
  | (Ok _, w1) =>
    (print sh_created ;;
     with_open_w bat_name (fun f => write f minimal_build_bat) ;;
     print bat_created) E w1
  | (Raise e, w1) => (Raise e, w1)
  end.
Proof.
  unfold creator, sh_part, bind.
  by destruct (with_open_w _ _ E w) as [[[]|e] w1].
Qed.

(** A shell-script part that raises has touched [minimal-build.sh] at
    most: nothing was printed and no other file was changed. *)
Lemma sh_part_raise E w e w1 :
  sh_part E w = (Raise e, w1) ->
  stdout w1 = stdout w /\
  (forall name, name <> sh_name -> fs w1 !! name = fs w !! name) /\
  (effects w w1 = [] \/
   effects w w1 = [EvOpen sh_name; EvClose sh_name] \/
   effects w w1 = [EvOpen sh_name; EvWrite sh_name minimal_build_script] \/
   effects w w1 = [EvOpen sh_name; EvWrite sh_name minimal_build_script;
                   EvClose sh_name]).
Proof.
  unfold sh_part, bind.
  rewrite with_open_w_write by apply script_nonempty.
  assert (Hnil : trace w = trace w ++ []) by (symmetry; apply app_nil_r).
  assert (Hfs : forall x name, name <> sh_name ->
                  <[sh_name := x]> (fs w) !! name = fs w !! name)
    by (intros; by apply lookup_insert_ne).
  destruct (os_open E sh_name); [intros [= _ <-]; auto using effects_app|].
  destruct (file_encodes _ _);
    [|intros [= _ <-]; split; [done|]; split; [apply Hfs|];
      right; left; by apply effects_app].
  destruct (os_write E sh_name);
    [intros [= _ <-]; split; [done|]; split; [apply Hfs|];
     right; right; left; by apply effects_app|].
  fold (after_sh E w). rewrite chmod_eq, fs_after_sh.
  destruct (os_chmod _ _ _); [|done].
  intros [= _ <-]. split; [done|]. split; [apply Hfs|].
  right; right; right; by apply effects_app.
Qed.

(** ** The files of a complete run *)

(** C1. After a run of the emitter that went through, the file
    [minimal-build.sh] is in the working directory and what it holds is
    the Unix template, the same bytes and nothing else. *)
Theorem sh_holds_script E w w' :
  creator E w = (Ok tt, w') ->
  content <$> fs w' !! sh_name = Some minimal_build_script.
Proof.
  intros (_ & _ & _ & ->)%creator_ok. by rewrite fs_completed, emitted_sh.
Qed.

Lemma sh_holds_script_witness :
  creator posix empty_dir = (Ok tt, completed posix empty_dir) /\
  content <$> fs (completed posix empty_dir) !! sh_name
  = Some minimal_build_script.
Proof.
  assert (H : creator posix empty_dir = (Ok tt, completed posix empty_dir))
    by (vm_compute; reflexivity).
  split; [exact H | exact (sh_holds_script _ _ _ H)].
Defined.

(** C2. After a run of the emitter that went through, the file
    [minimal-build.bat] is in the working directory and what it holds is
    the Windows template, the same bytes and nothing else. *)
Theorem bat_holds_template E w w' :
  creator E w = (Ok tt, w') ->
  content <$> fs w' !! bat_name = Some minimal_build_bat.
Proof.
  intros (_ & _ & _ & ->)%creator_ok. by rewrite fs_completed, emitted_bat.
Qed.

Lemma bat_holds_template_witness :
  creator posix stale_dir = (Ok tt, completed posix stale_dir) /\
  content <$> fs (completed posix stale_dir) !! bat_name
  = Some minimal_build_bat.
Proof.
  assert (H : creator posix stale_dir = (Ok tt, completed posix stale_dir))
    by (vm_compute; reflexivity).
  split; [exact H | exact (bat_holds_template _ _ _ H)].
Defined.

(** C3. After a complete run [minimal-build.sh] has the owner-executable
    bit; its mode is changed after its text has been written and the file
    closed, and nothing is written to it afterwards; the mode of
    [minimal-build.bat] is the one [open] left: the mode it had before
    the run, or the default of a new file.  In no run, complete or not,
    is a mode change applied to [minimal-build.bat]. *)
Theorem sh_executable_bat_untouched E w :
  (forall w',
      creator E w = (Ok tt, w') ->
      (exists m, mode <$> fs w' !! sh_name = Some m /\ Z.testbit m 6 = true) /\
      (exists pre post,
          effects w w' = pre ++ EvChmod sh_name (oct3 7 5 5) :: post /\
          EvWrite sh_name minimal_build_script ∈ pre /\
          EvClose sh_name ∈ pre /\
          (forall text, EvWrite sh_name text ∉ post)) /\
      mode <$> fs w' !! bat_name = Some (opened_mode E (fs w) bat_name)) /\
  (forall m, EvChmod bat_name m ∉ effects w (creator E w).2).
Proof.
  split.
  - intros w' (_ & _ & _ & ->)%creator_ok.
    rewrite fs_completed, effects_completed, emitted_sh, emitted_bat.
    split; [by eexists|]. split; [|done].
    exists (take 3 full_trace), (drop 4 full_trace). simpl.
    split; [done|]. split; [set_solver|]. split; [set_solver|].
    intros text Hin. set_unfold in Hin.
    repeat (destruct Hin as [Hin|Hin]; [discriminate|]). done.
  - intros m Hin%creator_effects_in. unfold full_trace in Hin.
    set_unfold in Hin.
    repeat (destruct Hin as [Hin|Hin]; [discriminate|]). done.
Qed.

Lemma sh_executable_bat_untouched_witness :
  creator posix stale_dir = (Ok tt, completed posix stale_dir) /\
  mode <$> fs (completed posix stale_dir) !! bat_name = Some (oct3 6 4 0).
Proof.
  assert (H : creator posix stale_dir = (Ok tt, completed posix stale_dir))
    by (vm_compute; reflexivity).
  split; [exact H|].
  exact (proj2 (proj2 (proj1 (sh_executable_bat_untouched _ _) _ H))).
Defined.

(** C10. After a complete run the mode of [minimal-build.sh] is exactly
    0o755: read, write and execute for the owner, read and execute, and no
    write, for the group and for the others. *)
Theorem sh_mode_is_755 E w w' :
  creator E w = (Ok tt, w') ->
  mode <$> fs w' !! sh_name = Some (oct3 7 5 5) /\
  oct3 7 5 5 = 493 /\
  Z.testbit (oct3 7 5 5) <$> [8; 7; 6; 5; 4; 3; 2; 1; 0]
  = [true; true; true; true; false; true; true; false; true].
Proof.
  intros (_ & _ & _ & ->)%creator_ok. by rewrite fs_completed, emitted_sh.
Qed.

Lemma sh_mode_is_755_witness :
  creator posix' stale_dir = (Ok tt, completed posix' stale_dir) /\
  mode <$> fs (completed posix' stale_dir) !! sh_name = Some 493.
Proof.
  assert (H : creator posix' stale_dir = (Ok tt, completed posix' stale_dir))
    by (vm_compute; reflexivity).
  split; [exact H | exact (proj1 (sh_mode_is_755 _ _ _ H))].
Defined.

(** ** Running again, and running over older files *)

(** C4. A second run, right after a first one, leaves the two files as
    the first run left them, content and mode: the working directory
    after the two runs is the working directory after the first, and
    each file holds its template once. *)
Theorem creator_idempotent E1 E2 w w1 w2 :
  creator E1 w = (Ok tt, w1) ->
  creator E2 w1 = (Ok tt, w2) ->
  fs w2 = fs w1 /\
  content <$> fs w2 !! sh_name = Some minimal_build_script /\
  content <$> fs w2 !! bat_name = Some minimal_build_bat.
Proof.
  intros (_ & _ & _ & ->)%creator_ok (_ & _ & _ & ->)%creator_ok.
  rewrite !fs_completed, emitted_emitted.
  by rewrite emitted_sh, emitted_bat.
Qed.

Lemma creator_idempotent_witness :
  creator posix stale_dir = (Ok tt, completed posix stale_dir) /\
  creator posix' (completed posix stale_dir)
  = (Ok tt, completed posix' (completed posix stale_dir)) /\
  fs (completed posix' (completed posix stale_dir))
  = fs (completed posix stale_dir).
Proof.
  assert (H1 : creator posix stale_dir = (Ok tt, completed posix stale_dir))
    by (vm_compute; reflexivity).
  assert (H2 : creator posix' (completed posix stale_dir)
               = (Ok tt, completed posix' (completed posix stale_dir)))
    by (vm_compute; reflexivity).
  split; [exact H1|]. split; [exact H2|].
  exact (proj1 (creator_idempotent _ _ _ _ _ H1 H2)).
Defined.

(** C6. A file [minimal-build.sh] that is there before the run, whatever
    it holds, holds the Unix template and nothing else after a complete
    run; what it held is not kept in front of the template.  The same for
    [minimal-build.bat]. *)
Theorem creator_overwrites E w w' old_sh old_bat :
  fs w !! sh_name = Some old_sh ->
  fs w !! bat_name = Some old_bat ->
  creator E w = (Ok tt, w') ->
  (content <$> fs w' !! sh_name = Some minimal_build_script /\
   (content old_sh <> EmptyString ->
    content <$> fs w' !! sh_name
    <> Some (content old_sh +:+ minimal_build_script))) /\
  (content <$> fs w' !! bat_name = Some minimal_build_bat /\
   (content old_bat <> EmptyString ->
    content <$> fs w' !! bat_name
    <> Some (content old_bat +:+ minimal_build_bat))).
Proof.
  intros _ _ (_ & _ & _ & ->)%creator_ok.
  rewrite fs_completed, emitted_sh, emitted_bat. simpl.
  split; (split; [done|]); intros Hold [= Heq];
    eapply Hold, append_left_inv, Heq.
Qed.

Lemma creator_overwrites_witness :
  fs stale_dir !! sh_name = Some (File "echo old" (oct3 6 0 0)) /\
  fs stale_dir !! bat_name = Some (File "rem old" (oct3 6 4 0)) /\
  creator posix stale_dir = (Ok tt, completed posix stale_dir) /\
  content <$> fs (completed posix stale_dir) !! sh_name
  = Some minimal_build_script /\
  content <$> fs (completed posix stale_dir) !! bat_name
  = Some minimal_build_bat.
Proof.
  assert (H1 : fs stale_dir !! sh_name = Some (File "echo old" (oct3 6 0 0)))
    by (vm_compute; reflexivity).
  assert (H2 : fs stale_dir !! bat_name = Some (File "rem old" (oct3 6 4 0)))
    by (vm_compute; reflexivity).
  assert (H3 : creator posix stale_dir = (Ok tt, completed posix stale_dir))
    by (vm_compute; reflexivity).
  pose proof (creator_overwrites _ _ _ _ _ H1 H2 H3) as [[Hsh _] [Hbat _]].
  repeat split; assumption.
Defined.

(** ** A run in an empty directory *)

(** C5. In an empty directory a complete run makes exactly two files,
    [minimal-build.sh] and [minimal-build.bat], and prints exactly two
    lines, the one for the shell script first. *)
Theorem creator_in_empty_dir E w w' :
  fs w = ∅ ->
  creator E w = (Ok tt, w') ->
  dom (fs w') = {[ sh_name; bat_name ]} /\
  size (fs w') = 2%nat /\
  stdout w' = stdout w ++ [sh_created; bat_created] /\
  prints (effects w w') = [sh_created; bat_created].
Proof.
  intros Hempty (_ & _ & _ & ->)%creator_ok.
  rewrite fs_completed, stdout_completed, effects_completed, Hempty.
  unfold emitted. split; [|split; [|done]].
  - rewrite !dom_insert_L, dom_empty_L. set_solver.
  - rewrite map_size_insert_None, map_size_insert_None, map_size_empty;
      [done..|].
    by rewrite lookup_insert_ne by apply sh_bat_ne.
Qed.

Lemma creator_in_empty_dir_witness :
  fs empty_dir = ∅ /\
  creator posix empty_dir = (Ok tt, completed posix empty_dir) /\
  stdout (completed posix empty_dir) = [sh_created; bat_created].
Proof.
  assert (H1 : fs empty_dir = ∅) by reflexivity.
  assert (H2 : creator posix empty_dir = (Ok tt, completed posix empty_dir))
    by (vm_compute; reflexivity).
  split; [exact H1|]. split; [exact H2|].
  exact (proj1 (proj2 (proj2 (creator_in_empty_dir _ _ _ H1 H2)))).
Defined.

(** ** No input *)

(** C7, as the specification has it, does not hold: two complete runs
    that differ in the setting of the console, the second one started
    with [PYTHONIOENCODING=ascii:replace], put different bytes on the
    console for the same confirmation line: the check mark in UTF-8 in
    the first, a question mark in the second. *)
Lemma console_bytes_follow_the_environment :
  creator posix empty_dir = (Ok tt, completed posix empty_dir) /\
  creator ascii_replace empty_dir
  = (Ok tt, completed ascii_replace empty_dir) /\
  take 3 <$> console (completed posix empty_dir)
  = [[226; 156; 147]; [226; 156; 147]] /\
  take 3 <$> console (completed ascii_replace empty_dir)
  = [[63; 32; 67]; [63; 32; 67]] /\
  console (completed posix empty_dir)
  <> console (completed ascii_replace empty_dir).
Proof.
  split; [vm_compute; reflexivity|]. split; [vm_compute; reflexivity|].
  split; [vm_compute; reflexivity|]. split; [vm_compute; reflexivity|].
  vm_compute. discriminate.
Qed.

(** C7, amended.  The emitter reads no input: the texts it gives to the
    files and to the console are fixed constants.  Two complete runs,
    whatever their arguments, environment variables, umask and working
    directory, leave the same text in the two files, the templates, and
    print the same two lines; in every run, complete or not, each effect
    is one of the nine fixed effects of a complete run.  The bytes on the
    console are these two lines as the encoding and the error handler of
    the console make them, which the environment decides: they are the
    same in two runs whose consoles encode alike. *)
Theorem creator_output_is_constant :
  (forall E1 E2 w1 w2 w1' w2',
      creator E1 w1 = (Ok tt, w1') ->
      creator E2 w2 = (Ok tt, w2') ->
      content <$> fs w1' !! sh_name = content <$> fs w2' !! sh_name /\
      content <$> fs w1' !! bat_name = content <$> fs w2' !! bat_name /\
      effects w1 w1' = effects w2 w2' /\
      prints (effects w1 w1') = [sh_created; bat_created] /\
      prints (effects w2 w2') = [sh_created; bat_created] /\
      console w1' = console w1 ++ (stdout_bytes E1 <$> [sh_created; bat_created]) /\
      console w2' = console w2 ++ (stdout_bytes E2 <$> [sh_created; bat_created]) /\
      (stdout_bytes E1 = stdout_bytes E2 ->
       drop (length (console w1)) (console w1')
       = drop (length (console w2)) (console w2'))) /\
  (forall E w ev, ev ∈ effects w (creator E w).2 -> ev ∈ full_trace).
Proof.
  split.
  - intros E1 E2 w1 w2 w1' w2'.
    intros (_ & _ & _ & ->)%creator_ok (_ & _ & _ & ->)%creator_ok.
    rewrite !fs_completed, !effects_completed, !emitted_sh, !emitted_bat.
    rewrite !console_completed, !drop_app_length.
    repeat split; try done. by intros ->.
  - apply creator_effects_in.
Qed.

Lemma creator_output_is_constant_witness :
  creator posix empty_dir = (Ok tt, completed posix empty_dir) /\
  creator posix' stale_dir = (Ok tt, completed posix' stale_dir) /\
  content <$> fs (completed posix empty_dir) !! sh_name
  = content <$> fs (completed posix' stale_dir) !! sh_name.
Proof.
  assert (H1 : creator posix empty_dir = (Ok tt, completed posix empty_dir))
    by (vm_compute; reflexivity).
  assert (H2 : creator posix' stale_dir = (Ok tt, completed posix' stale_dir))
    by (vm_compute; reflexivity).
  split; [exact H1|]. split; [exact H2|].
  exact (proj1 (proj1 creator_output_is_constant _ _ _ _ _ _ H1 H2)).
Defined.

(** ** Failures *)

(** C8, as the specification has it, does not hold: under a Latin-1
    locale the file system and the console let the emitter do all it asks
    for, and the run is stopped by an exception that is no file-system
    error, at the first write. *)
Lemma creator_fails_under_latin1 :
  permits latin1_locale /\
  console_ok latin1_locale /\
  creator latin1_locale empty_dir
  = (Raise UnicodeEncodeError,
     truncated sh_name [EvOpen sh_name; EvClose sh_name]
       latin1_locale empty_dir).
Proof. vm_compute. repeat split; reflexivity. Qed.

(** C8, amended.  A run is stopped only by a system call that is refused
    (creating or writing one of the two files, changing the mode of the
    shell script, writing a line to the console) or by a text that the
    encoding of text files or of the console cannot encode.  When the file
    system and the console let the emitter work and the encodings can
    encode the templates and the lines, the run goes through.  No run
    starts a process. *)
Theorem creator_failure_modes E w :
  (forall e w',
      creator E w = (Raise e, w') ->
      (exists n, e = OSError n /\
         (os_open E sh_name = Some n \/ os_write E sh_name = Some n \/
          os_chmod E sh_name (oct3 7 5 5) = Some n \/
          os_open E bat_name = Some n \/ os_write E bat_name = Some n \/
          os_print E sh_created = Some n \/ os_print E bat_created = Some n))
      \/ (e = UnicodeEncodeError /\ ~ encodes E)) /\
  (permits E -> encodes E -> console_ok E ->
   creator E w = (Ok tt, completed E w)) /\
  (forall cmd, EvSpawn cmd ∉ effects w (creator E w).2).
Proof.
  split; [|split].
  - intros e w' Heq. pose proof (creator_run_of E w) as H.
    rewrite Heq in H. simpl in H.
    inversion H; subst; eauto 12;
      right; (split; [done|]); intros (? & ? & ? & ?); congruence.
  - apply creator_completes.
  - intros cmd Hin%creator_effects_in. unfold full_trace in Hin.
    set_unfold in Hin.
    repeat (destruct Hin as [Hin|Hin]; [discriminate|]). done.
Qed.

Lemma creator_failure_modes_witness :
  (permits posix /\ encodes posix /\ console_ok posix /\
   creator posix stale_dir = (Ok tt, completed posix stale_dir)) /\
  (creator read_only empty_dir = (Raise (OSError EACCES), empty_dir) /\
   os_open read_only sh_name = Some EACCES).
Proof.
  assert (H1 : permits posix) by (repeat split; reflexivity).
  assert (H2 : encodes posix) by (repeat split; reflexivity).
  assert (H3 : console_ok posix) by (split; reflexivity).
  assert (H4 : creator read_only empty_dir
               = (Raise (OSError EACCES), empty_dir))
    by (vm_compute; reflexivity).
  split.
  - split; [exact H1|]. split; [exact H2|]. split; [exact H3|].
    exact (proj1 (proj2 (creator_failure_modes posix stale_dir)) H1 H2 H3).
  - split; [exact H4|].
    pose proof (proj1 (creator_failure_modes read_only empty_dir) _ _ H4)
      as [(n & [= <-] & _)|[[=] _]].
    reflexivity.
Defined.

(** C9. The statements run in the order of the source and nothing is
    caught.  When writing [minimal-build.sh] or changing its mode raises,
    the run ends with that exception: [minimal-build.bat] is not opened
    or written and nothing is printed.  In every run the line for the
    shell script is printed after the script was written, closed and made
    executable, and the line for the batch script after all the rest. *)
Theorem creator_strict_sequence E w :
  (forall e w1,
      sh_part E w = (Raise e, w1) ->
      creator E w = (Raise e, w1) /\
      fs w1 !! bat_name = fs w !! bat_name /\
      stdout w1 = stdout w /\
      prints (effects w w1) = [] /\
      (forall ev, ev ∈ effects w w1 ->
                  ev ∈ [ EvOpen sh_name;
                         EvWrite sh_name minimal_build_script;
                         EvClose sh_name ])) /\
  (EvPrint sh_created ∈ effects w (creator E w).2 ->
   exists rest,
     effects w (creator E w).2 =
     [ EvOpen sh_name; EvWrite sh_name minimal_build_script;
       EvClose sh_name; EvChmod sh_name (oct3 7 5 5);
       EvPrint sh_created ] ++ rest) /\
  (EvPrint bat_created ∈ effects w (creator E w).2 ->
   effects w (creator E w).2 = full_trace).
Proof.
  split; [|split].
  - intros e w1 Hsh. rewrite creator_sh_part, Hsh. split; [done|].
    destruct (sh_part_raise _ _ _ _ Hsh) as (Hout & Hfs & Ht).
    split; [apply Hfs; intros Heq; by apply sh_bat_ne|]. split; [done|].
    destruct Ht as [-> | [-> | [-> | ->]]]; (split; [done|]);
      intros ev; rewrite !elem_of_cons; tauto.
  - destruct (creator_effects E w) as [[n ->]|[->| ->]].
    + intros Hin.
      do 5 (destruct n as [|n];
            [set_unfold in Hin;
             repeat (destruct Hin as [Hin|Hin]; [discriminate|]); done|]).
      by eexists.
    + intros Hin. set_unfold in Hin.
      repeat (destruct Hin as [Hin|Hin]; [discriminate|]); done.
    + by eexists.
  - destruct (creator_effects E w) as [[n ->]|[->| ->]].
    + intros Hin.
      do 9 (destruct n as [|n];
            [set_unfold in Hin;
             repeat (destruct Hin as [Hin|Hin]; [discriminate|]); done|]).
      apply take_ge. simpl. lia.
    + intros Hin. set_unfold in Hin.
      repeat (destruct Hin as [Hin|Hin]; [discriminate|]); done.
    + intros Hin. simpl in Hin. set_unfold in Hin.
      repeat (destruct Hin as [Hin|Hin]; [discriminate|]); done.
Qed.

Lemma creator_strict_sequence_witness :
  sh_part read_only stale_dir = (Raise (OSError EACCES), stale_dir) /\
  creator read_only stale_dir = (Raise (OSError EACCES), stale_dir) /\
  (EvPrint sh_created ∈ effects empty_dir (creator posix empty_dir).2 /\
   EvPrint bat_created ∈ effects empty_dir (creator posix empty_dir).2 /\
   effects empty_dir (creator posix empty_dir).2 = full_trace).
Proof.
  assert (H1 : sh_part read_only stale_dir
               = (Raise (OSError EACCES), stale_dir))
    by (vm_compute; reflexivity).
  assert (H2 : effects empty_dir (creator posix empty_dir).2 = full_trace)
    by (vm_compute; reflexivity).
  assert (H3 : EvPrint sh_created
               ∈ effects empty_dir (creator posix empty_dir).2)
    by (rewrite H2; unfold full_trace; repeat constructor).
  assert (H4 : EvPrint bat_created
               ∈ effects empty_dir (creator posix empty_dir).2)
    by (rewrite H2; unfold full_trace; repeat constructor).
  split; [exact H1|].
  split; [exact (proj1 (proj1 (creator_strict_sequence _ _) _ _ H1))|].
  split; [exact H3|]. split; [exact H4|].
  exact (proj2 (proj2 (creator_strict_sequence posix empty_dir)) H4).
Defined.

(** * Further properties of the module body *)

(** Case analysis on the run of the module body in [E] from [w]. *)
Ltac run_cases E w :=
  let H := fresh "Hrun" in
  pose proof (creator_run_of E w) as H;
  destruct (creator E w) as [? ?]; simpl in H |- *;
  destruct H.

Ltac unfold_worlds :=
  unfold completed, after_bat, after_print_sh, after_chmod, after_sh,
    truncated, cut_short, written, chmodded, printed; simpl.


(** ** File objects *)

(** X2. Every file object the run opens is closed when the run ends,
    whether it ends normally or by an exception: started with no file
    object open, a run ends with none open. *)
Theorem creator_closes_files E w :
  pending w = ∅ -> pending (creator E w).2 = ∅.
Proof.
  intros Hp. run_cases E w; unfold_worlds;
    by rewrite ?Hp, ?delete_empty.
Qed.

Lemma creator_closes_files_witness :
  pending empty_dir = ∅ /\ pending (creator latin1_locale empty_dir).2 = ∅.
Proof.
  assert (H : pending empty_dir = ∅) by reflexivity.
  split; [exact H | exact (creator_closes_files latin1_locale empty_dir H)].
Defined.

(** ** The console *)

Ltac effects_of_world :=
  erewrite effects_app
    by (unfold_worlds; rewrite <- ?app_assoc; simpl;
        first [reflexivity | symmetry; apply app_nil_r]).

(** X3. A run only adds to the console: the lines it leaves there are
    the lines that were there followed by the lines it printed, and what
    it printed is nothing, the line of the shell script, or that line
    followed by the line of the batch script. *)
Theorem creator_console E w :
  stdout (creator E w).2 = stdout w ++ prints (effects w (creator E w).2) /\
  (prints (effects w (creator E w).2) = [] \/
   prints (effects w (creator E w).2) = [sh_created] \/
   prints (effects w (creator E w).2) = [sh_created; bat_created]).
Proof.
  run_cases E w; effects_of_world; unfold_worlds;
    rewrite <- ?app_assoc, ?app_nil_r; auto.
Qed.

(** X4. The confirmation lines can be trusted.  In any run, when the line
    of the shell script was printed, [minimal-build.sh] holds the Unix
    template with mode 0o755 at the end of the run, also when the run
    fails later; and the line of the batch script is printed exactly in
    the runs that complete. *)
Theorem creator_confirmations_hold E w :
  (EvPrint sh_created ∈ effects w (creator E w).2 ->
   fs (creator E w).2 !! sh_name
   = Some (File minimal_build_script (oct3 7 5 5))) /\
  (EvPrint bat_created ∈ effects w (creator E w).2 <->
   (creator E w).1 = Ok tt).
Proof.
  run_cases E w; effects_of_world; unfold_worlds.
  all: split; [|split].
  all: try discriminate.
  all: try (intros Hin; exfalso; set_unfold in Hin;
            repeat (destruct Hin as [Hin|Hin]; [discriminate|]); done).
  all: try (intros _;
            rewrite ?lookup_insert_ne by (symmetry; apply sh_bat_ne);
            by rewrite alter_insert_eq, lookup_insert_eq).
  all: intros _; repeat constructor.
Qed.

Lemma creator_confirmations_hold_witness :
  EvPrint sh_created ∈ effects stale_dir (creator posix stale_dir).2 /\
  fs (creator posix stale_dir).2 !! sh_name
  = Some (File minimal_build_script (oct3 7 5 5)).
Proof.
  assert (H : EvPrint sh_created
              ∈ effects stale_dir (creator posix stale_dir).2).
  { assert (Heq : effects stale_dir (creator posix stale_dir).2 = full_trace)
      by (vm_compute; reflexivity).
    rewrite Heq. unfold full_trace. repeat constructor. }
  split; [exact H|].
  exact (proj1 (creator_confirmations_hold posix stale_dir) H).
Defined.


(** ** Runs that fail, and what they leave *)

Lemma fs_truncated name t E w :
  fs (truncated name t E w)
  = <[name := File EmptyString (opened_mode E (fs w) name)]> (fs w).
Proof. reflexivity. Qed.

Lemma fs_cut_short name text E w :
  fs (cut_short name text E w)
  = <[name := File (String.substring 0 (os_partial E name) text)
                   (opened_mode E (fs w) name)]> (fs w).
Proof. reflexivity. Qed.

Lemma stdout_truncated name t E w : stdout (truncated name t E w) = stdout w.
Proof. reflexivity. Qed.

Lemma stdout_cut_short name text E w :
  stdout (cut_short name text E w) = stdout w.
Proof. reflexivity. Qed.

(** X5. Overwriting is not atomic.  When [minimal-build.sh] can be opened
    and the run then fails inside the [with] block (the template cannot
    be encoded, or the write is refused), what the file held before is
    lost: the file is left with the first bytes of the template, as many
    as the refused write let through, and empty when the template could
    not be encoded; nothing is printed and [minimal-build.bat] is as it
    was. *)
Theorem creator_failed_write_truncates E w :
  os_open E sh_name = None ->
  file_encodes E minimal_build_script = false \/
  is_Some (os_write E sh_name) ->
  (exists e, (creator E w).1 = Raise e) /\
  (exists n,
      fs (creator E w).2 !! sh_name
      = Some (File (String.substring 0 n minimal_build_script)
                   (opened_mode E (fs w) sh_name))) /\
  (file_encodes E minimal_build_script = false ->
   fs (creator E w).2 !! sh_name
   = Some (File EmptyString (opened_mode E (fs w) sh_name))) /\
  stdout (creator E w).2 = stdout w /\
  fs (creator E w).2 !! bat_name = fs w !! bat_name.
Proof.
  intros Ho Hfail. unfold creator, bind.
  rewrite with_open_w_write by apply script_nonempty. rewrite Ho.
  assert (Hbat : forall x, <[sh_name := x]> (fs w) !! bat_name
                           = fs w !! bat_name)
    by (intros; apply lookup_insert_ne, sh_bat_ne).
  destruct (file_encodes E minimal_build_script).
  - destruct Hfail as [[=]|[n Hn]]. rewrite Hn. cbn [fst snd].
    rewrite fs_cut_short, stdout_cut_short, lookup_insert_eq, Hbat.
    split; [eauto|]. split; [eauto|]. split; [by intros [=]|done].
  - cbn [fst snd].
    rewrite fs_truncated, stdout_truncated, lookup_insert_eq, Hbat.
    split; [eauto|]. split; [by exists 0%nat|]. done.
Qed.

Lemma creator_failed_write_truncates_witness :
  os_open size_limit sh_name = None /\
  is_Some (os_write size_limit sh_name) /\
  fs stale_dir !! sh_name = Some (File "echo old" (oct3 6 0 0)) /\
  (exists n,
      fs (creator size_limit stale_dir).2 !! sh_name
      = Some (File (String.substring 0 n minimal_build_script)
                   (opened_mode size_limit (fs stale_dir) sh_name))) /\
  String.length <$> (content <$> fs (creator size_limit stale_dir).2 !! sh_name)
  = Some 100%nat.
Proof.
  assert (H1 : os_open size_limit sh_name = None) by reflexivity.
  assert (H2 : is_Some (os_write size_limit sh_name))
    by (exists EFBIG; reflexivity).
  split; [exact H1|]. split; [exact H2|]. split; [vm_compute; reflexivity|].
  split; [|vm_compute; reflexivity].
  exact (proj1 (proj2 (creator_failed_write_truncates
                         size_limit stale_dir H1 (or_intror H2)))).
Defined.

(** X6. When the mode change is refused, the run ends with that error
    and nothing is undone: [minimal-build.sh] holds the template, with
    the mode [open] left instead of 0o755; no line is printed and
    [minimal-build.bat] is as it was. *)
Theorem creator_chmod_refused E w n :
  sh_written E ->
  os_chmod E sh_name (oct3 7 5 5) = Some n ->
  (creator E w).1 = Raise (OSError n) /\
  fs (creator E w).2 !! sh_name
  = Some (File minimal_build_script (opened_mode E (fs w) sh_name)) /\
  stdout (creator E w).2 = stdout w /\
  fs (creator E w).2 !! bat_name = fs w !! bat_name.
Proof.
  intros (Ho & Hfe & Hw) Hc. unfold creator, bind.
  rewrite with_open_w_write by apply script_nonempty.
  rewrite Ho, Hfe, Hw. fold (after_sh E w).
  rewrite chmod_eq, fs_after_sh, Hc. simpl.
  rewrite lookup_insert_eq, lookup_insert_ne by apply sh_bat_ne. done.
Qed.

Lemma creator_chmod_refused_witness :
  sh_written no_chmod /\
  os_chmod no_chmod sh_name (oct3 7 5 5) = Some EPERM /\
  fs (creator no_chmod empty_dir).2 !! sh_name
  = Some (File minimal_build_script (oct3 6 4 4)).
Proof.
  assert (H1 : sh_written no_chmod) by (repeat split; reflexivity).
  assert (H2 : os_chmod no_chmod sh_name (oct3 7 5 5) = Some EPERM)
    by reflexivity.
  split; [exact H1|]. split; [exact H2|].
  exact (proj1 (proj2 (creator_chmod_refused no_chmod empty_dir EPERM H1 H2))).
Defined.


(** X7. Nothing is rolled back when the batch script fails.  When the
    shell script was written, made executable and reported, and then the
    batch script cannot be opened, encoded or written, the run fails,
    [minimal-build.sh] stays complete and its line stays printed.  The
    batch script is as it was when it could not be opened; otherwise
    what it held is lost and it is left with the first bytes of its
    template that a refused write let through, none when the template
    could not be encoded. *)
Theorem creator_no_rollback E w :
  sh_reported E ->
  is_Some (os_open E bat_name) \/
  file_encodes E minimal_build_bat = false \/
  is_Some (os_write E bat_name) ->
  (exists e, (creator E w).1 = Raise e) /\
  fs (creator E w).2 !! sh_name
  = Some (File minimal_build_script (oct3 7 5 5)) /\
  stdout (creator E w).2 = stdout w ++ [sh_created] /\
  (is_Some (os_open E bat_name) ->
   fs (creator E w).2 !! bat_name = fs w !! bat_name) /\
  (os_open E bat_name = None ->
   exists n,
     fs (creator E w).2 !! bat_name
     = Some (File (String.substring 0 n minimal_build_bat)
                  (opened_mode E (fs w) bat_name))) /\
  (os_open E bat_name = None ->
   file_encodes E minimal_build_bat = false ->
   fs (creator E w).2 !! bat_name
   = Some (File EmptyString (opened_mode E (fs w) bat_name))).
Proof.
  intros (((Ho & Hfe & Hw) & Hc) & Hse & Hp) Hfail. unfold creator, bind.
  rewrite with_open_w_write by apply script_nonempty.
  rewrite Ho, Hfe, Hw. fold (after_sh E w).
  rewrite chmod_eq, fs_after_sh, Hc. fold (after_chmod E w).
  rewrite print_eq, Hse, Hp. fold (after_print_sh E w).
  rewrite with_open_w_write by apply bat_nonempty.
  assert (Hsh : fs (after_print_sh E w) !! sh_name
                = Some (File minimal_build_script (oct3 7 5 5)))
    by (unfold_worlds; by rewrite alter_insert_eq, lookup_insert_eq).
  assert (Hbat : fs (after_print_sh E w) !! bat_name = fs w !! bat_name).
  { unfold_worlds.
    by rewrite alter_insert_eq, lookup_insert_ne by apply sh_bat_ne. }
  assert (Hmode : opened_mode E (fs (after_print_sh E w)) bat_name
                  = opened_mode E (fs w) bat_name)
    by (unfold opened_mode; by rewrite Hbat).
  assert (Hout : stdout (after_print_sh E w) = stdout w ++ [sh_created])
    by done.
  destruct (os_open E bat_name) as [n|] eqn:Ho'.
  { cbn [fst snd]. rewrite Hsh, Hbat, Hout. split; [eauto|].
    repeat split; done. }
  assert (Hins : forall x,
             <[bat_name := x]> (fs (after_print_sh E w)) !! sh_name
             = Some (File minimal_build_script (oct3 7 5 5)))
    by (intros; by rewrite lookup_insert_ne by (symmetry; apply sh_bat_ne)).
  destruct (file_encodes E minimal_build_bat).
  - destruct Hfail as [[? [=]]|[[=]|[n Hn]]]. rewrite Hn. cbn [fst snd].
    rewrite fs_cut_short, stdout_cut_short.
    rewrite Hins, lookup_insert_eq, Hmode, Hout.
    split; [eauto|]. split; [done|]. split; [done|].
    split; [by intros [? [=]]|]. split; [eauto|]. by intros _ [=].
  - cbn [fst snd].
    rewrite fs_truncated, stdout_truncated.
    rewrite Hins, lookup_insert_eq, Hmode, Hout.
    split; [eauto|]. split; [done|]. split; [done|].
    split; [by intros [? [=]]|]. split; [by exists 0%nat|]. done.
Qed.

Lemma creator_no_rollback_witness :
  sh_reported bat_locked /\
  is_Some (os_open bat_locked bat_name) /\
  fs (creator bat_locked stale_dir).2 !! sh_name
  = Some (File minimal_build_script (oct3 7 5 5)) /\
  fs (creator bat_locked stale_dir).2 !! bat_name
  = Some (File "rem old" (oct3 6 4 0)).
Proof.
  assert (H1 : sh_reported bat_locked) by (repeat split; reflexivity).
  assert (H2 : is_Some (os_open bat_locked bat_name))
    by (exists EACCES; reflexivity).
  pose proof (creator_no_rollback bat_locked stale_dir H1 (or_introl H2))
    as (_ & Hsh & _ & Hbat & _).
  split; [exact H1|]. split; [exact H2|]. split; [exact Hsh|].
  rewrite (Hbat H2). vm_compute. reflexivity.
Defined.

(** ** Modes and names *)





(** ** Encodings *)

(** X11. When text files are encoded in ASCII or Latin-1, or the console
    is and its error handler is [strict], no run completes, whatever the
    file system allows: the templates and the confirmation lines hold
    characters outside Latin-1, and [open] gives a strict text file. *)
Theorem creator_needs_unicode E w c :
  c <> utf_8 ->
  file_encodes E = accepts c strict \/ stdout_encodes E = accepts c strict ->
  (creator E w).1 <> Ok tt.
Proof.
  intros Hc Henc. destruct (creator E w) as [r w'] eqn:Heq. simpl.
  intros ->. apply creator_ok in Heq as (_ & (Hs & _ & Hl & _) & _).
  apply Hc. destruct Henc as [Hf|Hf]; rewrite Hf in *.
  - by apply encodable_script.
  - by apply encodable_sh_created.
Qed.

Lemma creator_needs_unicode_witness :
  ascii <> utf_8 /\
  stdout_encodes ascii_console = accepts ascii strict /\
  (creator ascii_console empty_dir).1 <> Ok tt.
Proof.
  assert (H1 : ascii <> utf_8) by discriminate.
  assert (H2 : stdout_encodes ascii_console = accepts ascii strict)
    by reflexivity.
  split; [exact H1|]. split; [exact H2|].
  exact (creator_needs_unicode ascii_console empty_dir ascii H1
           (or_intror H2)).
Defined.

(** ** The order of the two files *)

(** X13. The batch script is touched last: in any run from a directory
    without [minimal-build.bat], when that file is there after the run,
    [minimal-build.sh] is complete, with the template and mode 0o755,
    and its line has been printed. *)
Theorem bat_present_sh_complete E w :
  fs w !! bat_name = None ->
  is_Some (fs (creator E w).2 !! bat_name) ->
  fs (creator E w).2 !! sh_name
  = Some (File minimal_build_script (oct3 7 5 5)) /\
  EvPrint sh_created ∈ effects w (creator E w).2.
Proof.
  intros Hnew. run_cases E w; effects_of_world; unfold_worlds;
    rewrite ?alter_insert_eq, ?lookup_insert_eq;
    rewrite ?(lookup_insert_ne _ sh_name bat_name) by apply sh_bat_ne;
    rewrite ?Hnew; try (by intros [? [=]]).
  all: intros _;
    rewrite ?(lookup_insert_ne _ bat_name sh_name)
      by (symmetry; apply sh_bat_ne);
    rewrite ?lookup_insert_eq; split; [done|repeat constructor].
Qed.

Lemma bat_present_sh_complete_witness :
  fs empty_dir !! bat_name = None /\
  is_Some (fs (creator posix empty_dir).2 !! bat_name) /\
  fs (creator posix empty_dir).2 !! sh_name
  = Some (File minimal_build_script (oct3 7 5 5)).
Proof.
  assert (H1 : fs empty_dir !! bat_name = None) by reflexivity.
  assert (H2 : is_Some (fs (creator posix empty_dir).2 !! bat_name))
    by (eexists; vm_compute; reflexivity).
  split; [exact H1|]. split; [exact H2|].
  exact (proj1 (bat_present_sh_complete posix empty_dir H1 H2)).
Defined.

